(** * Streaming handlers and the prompt handler of the prompt invocation layer

    A shallow embedding of [haystack/nodes/prompt/invocation_layer/handlers.py]:
    the token streaming callbacks ([DefaultTokenStreamingHandler],
    [AnthropicTokenStreamingHandler], [HFTokenStreamingHandler]) and the
    [DefaultPromptHandler] that resizes a prompt to a token budget.

    Python objects are records, a method is a function from the object (and
    its arguments) to its result and the updated object.  Python [str] is
    [string], Python [int] is [Z], the returned [dict] is a [gmap] keyed by
    strings.  The Hugging Face tokenizer is a third party object: it is a
    field of the prompt handler, as in the source, and every statement holds
    for any tokenizer. *)

From Stdlib Require Import ZArith Lia.
From stdpp Require Import base gmap strings list fin_maps.

Local Open Scope Z_scope.

(** ** The Python primitives the handlers use *)

Module Py.

(** [len(s)] of a [str]. *)
Definition len_str (s : string) : Z := Z.of_nat (String.length s).

(** [len(l)] of a [list]. *)
Definition len {A} (l : list A) : Z := Z.of_nat (length l).

(** Truth value of a [str] in a condition: only the empty string is falsy. *)
Definition truthy (s : string) : bool :=
  match s with
  | EmptyString => false
  | String _ _ => true
  end.

(** [sub in s]: [sub] occurs in [s] at some position.  [String.prefix sub s]
    compares [sub] with the characters of [s] from its first one on. *)
Fixpoint contains (sub s : string) : bool :=
  String.prefix sub s ||
  match s with
  | EmptyString => false
  | String _ s' => contains sub s'
  end.

(** How a slice bound [i] is adjusted for a sequence of length [n]: a
    negative bound counts from the end, and the result is clamped to
    [0 .. n]. *)
Definition adjust_index (i n : Z) : Z :=
  if i <? 0 then Z.max (i + n) 0 else Z.min i n.

(** [l[:stop]]. *)
Definition slice_to {A} (l : list A) (stop : Z) : list A :=
  take (Z.to_nat (adjust_index stop (len l))) l.

Fixpoint drop_str (n : nat) (s : string) : string :=
  match n, s with
  | O, _ => s
  | S _, EmptyString => EmptyString
  | S n', String _ s' => drop_str n' s'
  end.

(** [s[start:]]. *)
Definition str_slice_from (s : string) (start : Z) : string :=
  drop_str (Z.to_nat (adjust_index start (len_str s))) s.

(** The values of the dictionary the prompt handler returns:
    [Union[str, int]]. *)
Inductive value : Type :=
| VStr (s : string)
| VInt (n : Z).

(** A dict display [{k1: v1, ..., kn: vn}]: the items are inserted from
    left to right. *)
Definition dict_of_items (items : list (string * value)) : gmap string value :=
  foldl (λ d kv, <[kv.1 := kv.2]> d) ∅ items.

End Py.

(** ** Token streaming handlers *)

(** [TokenStreamingHandler] is the abstract base class: a handler is called
    with the token received and returns the token to be sent to the stream.
    The call may change the handler, so it also returns the handler after the
    call. *)
Class TokenStreamingHandler (H : Type) :=
  handler_call : H → string → string * H.

Definition DONE_MARKER : string := "[DONE]".

(** [DefaultTokenStreamingHandler] prints the token, without a line end, and
    returns it.  What has been printed is kept in [printed]. *)
Record DefaultTokenStreamingHandler : Type := {
  printed : string
}.

Definition DefaultTokenStreamingHandler_call
    (self : DefaultTokenStreamingHandler) (token_received : string)
    : string * DefaultTokenStreamingHandler :=
  (token_received, {| printed := printed self +:+ token_received |}).

#[export] Instance DefaultTokenStreamingHandler_handler
  : TokenStreamingHandler DefaultTokenStreamingHandler :=
  DefaultTokenStreamingHandler_call.

(** [AnthropicTokenStreamingHandler]: wraps a handler and remembers the text
    received by the previous call. *)
Record AnthropicTokenStreamingHandler (H : Type) : Type := {
  token_handler : H;
  previous_text : string
}.
Arguments token_handler {H} _.
Arguments previous_text {H} _.

(** [__init__] *)
Definition AnthropicTokenStreamingHandler_init {H} (token_handler : H)
    : AnthropicTokenStreamingHandler H :=
  {| token_handler := token_handler; previous_text := "" |}.

(** The state after the [if] at the head of [__call__]: the previous text is
    cleared when it does not occur in the text received. *)
Definition Anthropic_after_check {H}
    (self : AnthropicTokenStreamingHandler H) (token_received : string)
    : AnthropicTokenStreamingHandler H :=
  if negb (Py.contains (previous_text self) token_received)
  then {| token_handler := token_handler self; previous_text := "" |}
  else self.

(** [__call__] *)
Definition AnthropicTokenStreamingHandler_call {H} `{!TokenStreamingHandler H}
    (self : AnthropicTokenStreamingHandler H) (token_received : string)
    : string * AnthropicTokenStreamingHandler H :=
  let self := Anthropic_after_check self token_received in
  let previous_text_length := Py.len_str (previous_text self) in
  let chopped_text := Py.str_slice_from token_received previous_text_length in
  let '(_, token_handler') := handler_call (token_handler self) chopped_text in
  (chopped_text,
   {| token_handler := token_handler'; previous_text := token_received |}).

#[export] Instance AnthropicTokenStreamingHandler_handler
    {H} `{!TokenStreamingHandler H}
  : TokenStreamingHandler (AnthropicTokenStreamingHandler H) :=
  AnthropicTokenStreamingHandler_call.

(** Whether a call clears the previous text before it chops. *)
Definition Anthropic_resets {H}
    (self : AnthropicTokenStreamingHandler H) (token_received : string) : bool :=
  negb (Py.contains (previous_text self) token_received).

(** The tokenizer of the [transformers] library, as far as the handlers use
    it. *)
Record Tokenizer : Type := {
  tokenize : string → list string;
  convert_tokens_to_string : list string → string
}.

(** [HFTokenStreamingHandler] extends the [TextStreamer] of [transformers],
    which keeps the tokenizer and calls [on_finalized_text] with each chunk of
    text it has decoded. *)
Record HFTokenStreamingHandler (H : Type) : Type := {
  hf_tokenizer : Tokenizer;
  hf_token_handler : H
}.
Arguments hf_tokenizer {H} _.
Arguments hf_token_handler {H} _.

Definition HFTokenStreamingHandler_init {H}
    (tokenizer : Tokenizer) (stream_handler : H) : HFTokenStreamingHandler H :=
  {| hf_tokenizer := tokenizer; hf_token_handler := stream_handler |}.

(** The string ["\n"]. *)
Definition newline : string := String (Ascii.ascii_of_nat 10) EmptyString.

(** [on_finalized_text]; it returns nothing, so only the handler after the
    call is left. *)
Definition on_finalized_text {H} `{!TokenStreamingHandler H}
    (self : HFTokenStreamingHandler H) (token : string) (stream_end : bool)
    : HFTokenStreamingHandler H :=
  let token_to_send := if stream_end then token +:+ newline else token in
  let '(_, token_handler') := handler_call (hf_token_handler self) token_to_send in
  {| hf_tokenizer := hf_tokenizer self; hf_token_handler := token_handler' |}.

(** A handler that notes every token it is called with before it passes the
    call on to the handler it wraps.  Wrapping the handler given to an adapter
    in it shows which calls the adapter makes. *)
Record RecordingHandler (H : Type) : Type := {
  inner : H;
  received : list string
}.
Arguments inner {H} _.
Arguments received {H} _.

Definition RecordingHandler_call {H} `{!TokenStreamingHandler H}
    (self : RecordingHandler H) (token_received : string)
    : string * RecordingHandler H :=
  let '(token, inner') := handler_call (inner self) token_received in
  (token, {| inner := inner'; received := received self ++ [token_received] |}).

#[export] Instance RecordingHandler_handler {H} `{!TokenStreamingHandler H}
  : TokenStreamingHandler (RecordingHandler H) :=
  RecordingHandler_call.

(** ** The prompt handler *)

(** The calls a prompt handler makes on its tokenizer, in order. *)
Inductive TokenizerCall : Type :=
| CallTokenize (text : string)
| CallConvertTokensToString (tokens : list string).

(** A result together with the tokenizer calls made to compute it. *)
Record Traced (A : Type) : Type := MkTraced {
  result : A;
  calls : list TokenizerCall
}.
Arguments MkTraced {A} _ _.
Arguments result {A} _.
Arguments calls {A} _.

#[export] Instance Traced_ret : MRet Traced := λ A a, MkTraced a [].
#[export] Instance Traced_bind : MBind Traced := λ A B f m,
  let r := f (result m) in MkTraced (result r) (calls m ++ calls r).

(** [DefaultPromptHandler]: [__init__] loads the tokenizer of the model and
    keeps the two lengths. *)
Record DefaultPromptHandler : Type := {
  tokenizer : Tokenizer;
  model_max_length : Z;
  max_length : Z
}.

(** [self.tokenizer.tokenize(text)] *)
Definition call_tokenize (self : DefaultPromptHandler) (text : string)
    : Traced (list string) :=
  MkTraced (tokenize (tokenizer self) text) [CallTokenize text].

(** [self.tokenizer.convert_tokens_to_string(tokens)] *)
Definition call_convert_tokens_to_string
    (self : DefaultPromptHandler) (tokens : list string) : Traced string :=
  MkTraced (convert_tokens_to_string (tokenizer self) tokens)
           [CallConvertTokensToString tokens].

(** The body of [__call__] up to the [return]: the values of the local
    variables [resized_prompt], [prompt_length] and [new_prompt_length]. *)
Definition resize (self : DefaultPromptHandler) (prompt : string)
    : Traced (string * Z * Z) :=
  if Py.truthy prompt then
    tokens ← call_tokenize self prompt;
    let prompt_length := Py.len tokens in
    if bool_decide (prompt_length + max_length self ≤ model_max_length self) then
      mret (prompt, prompt_length, prompt_length)
    else
      tokenized_payload ← call_tokenize self prompt;
      resized_prompt ← call_convert_tokens_to_string self
        (Py.slice_to tokenized_payload (model_max_length self - max_length self));
      mret (resized_prompt, prompt_length,
            Py.len (Py.slice_to tokenized_payload
                      (model_max_length self - max_length self)))
  else mret (prompt, 0, 0).

(** [__call__] *)
Definition DefaultPromptHandler_call
    (self : DefaultPromptHandler) (prompt : string)
    : Traced (gmap string Py.value) :=
  '(resized_prompt, prompt_length, new_prompt_length) ← resize self prompt;
  mret (Py.dict_of_items [
    ("resized_prompt", Py.VStr resized_prompt);
    ("prompt_length", Py.VInt prompt_length);
    ("new_prompt_length", Py.VInt new_prompt_length);
    ("model_max_length", Py.VInt (model_max_length self));
    ("max_length", Py.VInt (max_length self))
  ]).

(** A tokenizer to run the prompt handler on: every character is a token, and
    tokens are joined without a separator. *)
Fixpoint chars (s : string) : list string :=
  match s with
  | EmptyString => []
  | String c s' => String c EmptyString :: chars s'
  end.

Definition char_tokenizer : Tokenizer := {|
  tokenize := chars;
  convert_tokens_to_string := foldr String.app ""
|}.

(** The prompt handler of a model with the character tokenizer. *)
Definition char_prompt_handler (model_max_length max_length : Z)
    : DefaultPromptHandler :=
  {| tokenizer := char_tokenizer;
     model_max_length := model_max_length;
     max_length := max_length |}.

(** An Anthropic handler around the printing handler, after it has been
    called with the texts of [history], one after the other. *)
Definition anthropic_after (history : list string)
    : AnthropicTokenStreamingHandler DefaultTokenStreamingHandler :=
  foldl (λ self t, (AnthropicTokenStreamingHandler_call self t).2)
        (AnthropicTokenStreamingHandler_init {| printed := "" |})
        history.

(** ** What the statements below speak of *)

(** [p] is a prefix of [t]: [t] is [p] followed by some text. *)
Definition is_prefix (p t : string) : Prop := ∃ s, t = p +:+ s.

(** [sub] is a substring of [t]: it occurs in [t] somewhere, between a text
    before it and a text after it. *)
Definition is_substring (sub t : string) : Prop := ∃ a b, t = a +:+ sub +:+ b.

(** The five keys of the dictionary the prompt handler returns. *)
Definition prompt_handler_keys : gset string :=
  {[ "resized_prompt"; "prompt_length"; "new_prompt_length";
     "model_max_length"; "max_length" ]}.

(** The resized prompt and the new length as the handler is described: the
    prompt itself when its tokens and the answer fit the model, and otherwise
    the first [model_max_length - max_length] tokens of the prompt turned back
    into a string, with that number as the new length. *)
Definition resized_as_described
    (self : DefaultPromptHandler) (prompt : string)
    (d : gmap string Py.value) : Prop :=
  let tokens := tokenize (tokenizer self) prompt in
  let budget := model_max_length self - max_length self in
  if bool_decide (Py.len tokens + max_length self ≤ model_max_length self)
  then d !! "resized_prompt" = Some (Py.VStr prompt)
  else
    d !! "resized_prompt"
    = Some (Py.VStr (convert_tokens_to_string (tokenizer self)
                       (take (Z.to_nat budget) tokens)))
    ∧ d !! "new_prompt_length" = Some (Py.VInt budget).

(** The new length the handler reports, with the length kept for the answer,
    is within the length of the model. *)
Definition fits_budget
    (self : DefaultPromptHandler) (d : gmap string Py.value) : Prop :=
  ∃ n, d !! "new_prompt_length" = Some (Py.VInt n)
       ∧ n + max_length self ≤ model_max_length self.

(** ** Streams of calls *)

(** A handler called with each of [tokens] in turn, as an invocation layer
    calls it for the events of a stream: the tokens the calls return, and the
    handler after the last call. *)
Fixpoint handler_calls {H} `{!TokenStreamingHandler H}
    (h : H) (tokens : list string) : list string * H :=
  match tokens with
  | [] => ([], h)
  | t :: ts =>
      let '(r, h') := handler_call h t in
      let '(rs, h'') := handler_calls h' ts in
      (r :: rs, h'')
  end.

(** [on_finalized_text] called with each chunk in turn, as the [TextStreamer]
    calls it; a chunk comes with its [stream_end] flag. *)
Definition on_finalized_texts {H} `{!TokenStreamingHandler H}
    (self : HFTokenStreamingHandler H) (chunks : list (string * bool))
    : HFTokenStreamingHandler H :=
  foldl (λ self chunk, on_finalized_text self chunk.1 chunk.2) self chunks.

(** The text [on_finalized_text] sends for a chunk. *)
Definition token_to_send (chunk : string * bool) : string :=
  if chunk.2 then chunk.1 +:+ newline else chunk.1.

(** The parts one after the other, without a separator. *)
Definition str_join (parts : list string) : string :=
  foldr String.app "" parts.

(** Every text of [texts] extends the one before it, and the first one
    extends [prev]. *)
Fixpoint growing (prev : string) (texts : list string) : Prop :=
  match texts with
  | [] => True
  | t :: ts => is_prefix prev t ∧ growing t ts
  end.

(** The last text of a stream that started from [prev]. *)
Definition last_text (prev : string) (texts : list string) : string :=
  default prev (last texts).

(** ** Strings and slices *)

Section strings.
Implicit Types (s t p sub : string) (c : Ascii.ascii).

Lemma app_empty_l s : "" +:+ s = s.
Proof. reflexivity. Qed.

Lemma app_String c s t : String c s +:+ t = String c (s +:+ t).
Proof. reflexivity. Qed.

Lemma app_empty_r s : s +:+ "" = s.
Proof. induction s as [|c s IH]; [done|]. by rewrite app_String, IH. Qed.

Lemma app_assoc_str s t p : (s +:+ t) +:+ p = s +:+ t +:+ p.
Proof.
  induction s as [|c s IH]; [done|]. by rewrite !app_String, IH.
Qed.

Lemma length_app_str s t :
  String.length (s +:+ t) = (String.length s + String.length t)%nat.
Proof.
  induction s as [|c s IH]; [done|]. rewrite app_String. simpl. by rewrite IH.
Qed.

Lemma truthy_spec s : Py.truthy s = true ↔ s ≠ "".
Proof. destruct s; simpl; split; try done. Qed.

Lemma prefix_String c p d t :
  String.prefix (String c p) (String d t)
  = bool_decide (c = d) && String.prefix p t.
Proof.
  simpl. destruct (Ascii.ascii_dec c d) as [->|Hne].
  - by rewrite bool_decide_eq_true_2.
  - by rewrite bool_decide_eq_false_2.
Qed.

(** The test of [String.prefix] is the prefix relation. *)
Lemma prefix_spec p t : String.prefix p t = true ↔ is_prefix p t.
Proof.
  revert t. induction p as [|c p IH]; intros t.
  - split; [|by destruct t]. intros _. by exists t.
  - destruct t as [|d t].
    + split; [done|]. intros [s Hs]. by rewrite app_String in Hs.
    + rewrite prefix_String, andb_true_iff, bool_decide_eq_true, IH.
      split.
      * intros [-> [s ->]]. by exists s.
      * intros [s Hs]. rewrite app_String in Hs.
        injection Hs as -> ->. split; [done|]. by exists s.
Qed.

Lemma contains_empty_r sub : Py.contains sub "" = String.prefix sub "".
Proof. unfold Py.contains. apply orb_false_r. Qed.

Lemma contains_String sub d t :
  Py.contains sub (String d t)
  = String.prefix sub (String d t) || Py.contains sub t.
Proof. reflexivity. Qed.

(** The test of [in] is the substring relation. *)
Lemma contains_spec sub t : Py.contains sub t = true ↔ is_substring sub t.
Proof.
  induction t as [|d t IH].
  - rewrite contains_empty_r, prefix_spec. split.
    + intros [b ->]. by exists "", b.
    + intros (a & b & Hab). destruct a as [|c a]; [by exists b|done].
  - rewrite contains_String, orb_true_iff, prefix_spec, IH. split.
    + intros [[b Hb]|(a & b & ->)].
      * by exists "", b.
      * by exists (String d a), b.
    + intros (a & b & Hab). destruct a as [|c a].
      * left. by exists b.
      * right. rewrite app_String in Hab. injection Hab as _ ->.
        by exists a, b.
Qed.

Lemma prefix_substring p t : is_prefix p t → is_substring p t.
Proof. intros [s ->]. by exists "", s. Qed.

Lemma contains_empty t : Py.contains "" t = true.
Proof. apply contains_spec. by exists "", t. Qed.

Lemma adjust_index_in_range (i n : Z) : 0 ≤ i ≤ n → Py.adjust_index i n = i.
Proof. intros ?. unfold Py.adjust_index. case_eq (i <? 0); lia. Qed.

Lemma drop_str_0 s : Py.drop_str 0 s = s.
Proof. by destruct s. Qed.

Lemma drop_str_app p s : Py.drop_str (String.length p) (p +:+ s) = s.
Proof.
  induction p as [|c p IH]; [apply drop_str_0|].
  by rewrite app_String.
Qed.

(** [t[0:]] is [t]. *)
Lemma str_slice_from_0 t : Py.str_slice_from t 0 = t.
Proof.
  unfold Py.str_slice_from, Py.len_str.
  rewrite adjust_index_in_range by lia. apply drop_str_0.
Qed.

(** [(p + s)[len(p):]] is [s]. *)
Lemma str_slice_from_app p s :
  Py.str_slice_from (p +:+ s) (Py.len_str p) = s.
Proof.
  unfold Py.str_slice_from, Py.len_str.
  rewrite adjust_index_in_range by (rewrite length_app_str; lia).
  rewrite Nat2Z.id. apply drop_str_app.
Qed.

Lemma app_newline_ne s : s +:+ newline ≠ s.
Proof.
  intros Heq. apply (f_equal String.length) in Heq.
  rewrite length_app_str in Heq. simpl in Heq. lia.
Qed.
End strings.

Section slices.
Context {A : Type}.
Implicit Types (l : list A) (k : Z).

(** The length of [l[:k]]. *)
Lemma len_slice_to l k :
  Py.len (Py.slice_to l k) = Py.adjust_index k (Py.len l).
Proof.
  unfold Py.slice_to, Py.len. rewrite length_take.
  unfold Py.adjust_index, Py.len. case_eq (k <? 0); lia.
Qed.

(** For a bound within the list, [l[:k]] is the first [k] elements. *)
Lemma slice_to_in_range l k :
  0 ≤ k ≤ Py.len l → Py.slice_to l k = take (Z.to_nat k) l.
Proof. intros ?. unfold Py.slice_to. by rewrite adjust_index_in_range. Qed.

(** A negative bound drops elements from the end. *)
Lemma slice_to_negative l k :
  k < 0 → Py.slice_to l k = take (length l - Z.to_nat (- k)) l.
Proof.
  intros Hk. unfold Py.slice_to, Py.adjust_index, Py.len.
  replace (k <? 0) with true by lia. f_equal. lia.
Qed.
End slices.

(** ** The Anthropic streaming handler *)

Section anthropic.
Context {H : Type} `{!TokenStreamingHandler H}.
Implicit Types (self : AnthropicTokenStreamingHandler H).
Implicit Types (token_received t : string).

(** The check at the head of [__call__] leaves the wrapped handler alone. *)
Lemma after_check_token_handler self t :
  token_handler (Anthropic_after_check self t) = token_handler self.
Proof. unfold Anthropic_after_check. by destruct (negb _). Qed.

Lemma after_check_reset self t :
  Anthropic_resets self t = true →
  previous_text (Anthropic_after_check self t) = "".
Proof.
  unfold Anthropic_resets, Anthropic_after_check. by intros ->.
Qed.

Lemma after_check_keep self t :
  Anthropic_resets self t = false →
  Anthropic_after_check self t = self.
Proof.
  unfold Anthropic_resets, Anthropic_after_check. by intros ->.
Qed.

(** The test that decides a reset is the substring test. *)
Lemma resets_spec self t :
  Anthropic_resets self t = true ↔ ¬ is_substring (previous_text self) t.
Proof.
  unfold Anthropic_resets. rewrite negb_true_iff, <-contains_spec.
  by destruct (Py.contains _ _).
Qed.

Lemma no_reset_spec self t :
  Anthropic_resets self t = false ↔ is_substring (previous_text self) t.
Proof.
  unfold Anthropic_resets. by rewrite negb_false_iff, contains_spec.
Qed.

(** The three effects of a call: the text returned, the text kept, and the
    one call passed on to the wrapped handler. *)
Lemma call_returns self t :
  (AnthropicTokenStreamingHandler_call self t).1
  = Py.str_slice_from t
      (Py.len_str (previous_text (Anthropic_after_check self t))).
Proof.
  unfold AnthropicTokenStreamingHandler_call. by destruct (handler_call _ _).
Qed.

Lemma call_previous_text self t :
  previous_text (AnthropicTokenStreamingHandler_call self t).2 = t.
Proof.
  unfold AnthropicTokenStreamingHandler_call. by destruct (handler_call _ _).
Qed.

Lemma call_token_handler self t :
  token_handler (AnthropicTokenStreamingHandler_call self t).2
  = (handler_call (token_handler self)
       (AnthropicTokenStreamingHandler_call self t).1).2.
Proof.
  unfold AnthropicTokenStreamingHandler_call.
  rewrite after_check_token_handler.
  destruct (handler_call _ _) as [r handler'] eqn:Hcall. simpl.
  by rewrite Hcall.
Qed.

(** C3: when the text kept from the previous call is a prefix of the text
    received, the call returns the rest of the text received: the slice that
    starts at the length of the previous text, which together with the
    previous text makes up the text received. *)
Theorem call_extending_returns_suffix self token_received :
  is_prefix (previous_text self) token_received →
  (AnthropicTokenStreamingHandler_call self token_received).1
  = Py.str_slice_from token_received (Py.len_str (previous_text self))
  ∧ token_received
    = previous_text self
      +:+ (AnthropicTokenStreamingHandler_call self token_received).1.
Proof.
  intros Hpre. rewrite call_returns, after_check_keep.
  - split; [done|]. destruct Hpre as [s ->]. by rewrite str_slice_from_app.
  - by apply no_reset_spec, prefix_substring.
Qed.

(** C5: when the text kept from the previous call is not a substring of the
    text received, the call clears it, returns the whole text received, and
    keeps the text received as the new previous text. *)
Theorem call_unrelated_resets self token_received :
  ¬ is_substring (previous_text self) token_received →
  Anthropic_resets self token_received = true
  ∧ previous_text (Anthropic_after_check self token_received) = ""
  ∧ (AnthropicTokenStreamingHandler_call self token_received).1
    = token_received
  ∧ previous_text (AnthropicTokenStreamingHandler_call self token_received).2
    = token_received.
Proof.
  intros Hsub%resets_spec. split; [done|].
  split; [by apply after_check_reset|].
  split; [|apply call_previous_text].
  rewrite call_returns, after_check_reset by done. apply str_slice_from_0.
Qed.

(** C6: the first call of a handler that has just been constructed returns
    the text received in full. *)
Theorem first_call_returns_all (handler : H) (t : string) :
  (AnthropicTokenStreamingHandler_call
     (AnthropicTokenStreamingHandler_init handler) t).1 = t.
Proof.
  rewrite call_returns, after_check_keep.
  - apply str_slice_from_0.
  - apply no_reset_spec, contains_spec, contains_empty.
Qed.

End anthropic.

(** C10: after a call the text kept is the text received by that call, and the
    wrapped handler has been called once more, with the very string the call
    returns. *)
Theorem call_keeps_argument_and_forwards_result
    {H : Type} `{!TokenStreamingHandler H}
    (self : AnthropicTokenStreamingHandler (RecordingHandler H))
    (token_received : string) :
  previous_text (AnthropicTokenStreamingHandler_call self token_received).2
  = token_received
  ∧ received
      (token_handler (AnthropicTokenStreamingHandler_call self token_received).2)
    = received (token_handler self)
      ++ [(AnthropicTokenStreamingHandler_call self token_received).1].
Proof.
  split; [apply call_previous_text|].
  rewrite call_token_handler.
  unfold handler_call at 1, RecordingHandler_handler, RecordingHandler_call.
  by destruct (handler_call _ _).
Qed.

(** ** The Hugging Face streaming handler *)

(** C8: [on_finalized_text] calls the wrapped handler once, with the chunk
    itself when [stream_end] is false and with the chunk followed by a line
    end when it is true; the wrapped handler is left as that one call leaves
    it. *)
Theorem on_finalized_text_forwards_once
    {H : Type} `{!TokenStreamingHandler H}
    (self : HFTokenStreamingHandler (RecordingHandler H))
    (token : string) (stream_end : bool) :
  ∃ token_to_send,
    received (hf_token_handler (on_finalized_text self token stream_end))
    = received (hf_token_handler self) ++ [token_to_send]
    ∧ inner (hf_token_handler (on_finalized_text self token stream_end))
      = (handler_call (inner (hf_token_handler self)) token_to_send).2
    ∧ (token_to_send = token +:+ newline ↔ stream_end = true)
    ∧ (token_to_send = token ↔ stream_end = false).
Proof.
  exists (if stream_end then token +:+ newline else token).
  unfold on_finalized_text.
  unfold handler_call at 1 2, RecordingHandler_handler, RecordingHandler_call.
  destruct (handler_call _ _) as [r inner'] eqn:Hcall. simpl.
  split; [done|]. split; [done|].
  pose proof (app_newline_ne token) as Hne.
  destruct stream_end; split; split; congruence.
Qed.

(** ** Facts about the prompt handler *)

Section prompt_handler.
Implicit Types (self : DefaultPromptHandler) (prompt : string).

Lemma resize_empty self prompt :
  Py.truthy prompt = false → resize self prompt = MkTraced (prompt, 0, 0) [].
Proof. unfold resize. by intros ->. Qed.

Lemma resize_fits self prompt :
  Py.truthy prompt = true →
  Py.len (tokenize (tokenizer self) prompt) + max_length self
    ≤ model_max_length self →
  resize self prompt
  = MkTraced (prompt, Py.len (tokenize (tokenizer self) prompt),
              Py.len (tokenize (tokenizer self) prompt))
             [CallTokenize prompt].
Proof.
  intros Ht Hfit. unfold resize. rewrite Ht.
  unfold mbind, Traced_bind; simpl. by rewrite bool_decide_eq_true_2.
Qed.

Lemma resize_over self prompt :
  Py.truthy prompt = true →
  ¬ (Py.len (tokenize (tokenizer self) prompt) + max_length self
     ≤ model_max_length self) →
  resize self prompt
  = MkTraced
      (convert_tokens_to_string (tokenizer self)
         (Py.slice_to (tokenize (tokenizer self) prompt)
            (model_max_length self - max_length self)),
       Py.len (tokenize (tokenizer self) prompt),
       Py.len (Py.slice_to (tokenize (tokenizer self) prompt)
                 (model_max_length self - max_length self)))
      [CallTokenize prompt; CallTokenize prompt;
       CallConvertTokensToString
         (Py.slice_to (tokenize (tokenizer self) prompt)
            (model_max_length self - max_length self))].
Proof.
  intros Ht Hover. unfold resize. rewrite Ht.
  unfold mbind, Traced_bind; simpl. by rewrite bool_decide_eq_false_2.
Qed.

(** The dictionary returned, from the local variables at the [return]. *)
Lemma call_result self prompt :
  result (DefaultPromptHandler_call self prompt)
  = Py.dict_of_items [
      ("resized_prompt", Py.VStr (result (resize self prompt)).1.1);
      ("prompt_length", Py.VInt (result (resize self prompt)).1.2);
      ("new_prompt_length", Py.VInt (result (resize self prompt)).2);
      ("model_max_length", Py.VInt (model_max_length self));
      ("max_length", Py.VInt (max_length self)) ].
Proof.
  unfold DefaultPromptHandler_call.
  by destruct (resize self prompt) as [[[rp pl] npl] cs].
Qed.

Lemma call_calls self prompt :
  calls (DefaultPromptHandler_call self prompt) = calls (resize self prompt).
Proof.
  unfold DefaultPromptHandler_call.
  destruct (resize self prompt) as [[[rp pl] npl] cs]. simpl.
  apply app_nil_r.
Qed.

Lemma call_resized_prompt self prompt :
  result (DefaultPromptHandler_call self prompt) !! "resized_prompt"
  = Some (Py.VStr (result (resize self prompt)).1.1).
Proof. rewrite call_result. unfold Py.dict_of_items. by simplify_map_eq. Qed.

Lemma call_prompt_length self prompt :
  result (DefaultPromptHandler_call self prompt) !! "prompt_length"
  = Some (Py.VInt (result (resize self prompt)).1.2).
Proof. rewrite call_result. unfold Py.dict_of_items. by simplify_map_eq. Qed.

Lemma call_new_prompt_length self prompt :
  result (DefaultPromptHandler_call self prompt) !! "new_prompt_length"
  = Some (Py.VInt (result (resize self prompt)).2).
Proof. rewrite call_result. unfold Py.dict_of_items. by simplify_map_eq. Qed.

Lemma call_model_max_length self prompt :
  result (DefaultPromptHandler_call self prompt) !! "model_max_length"
  = Some (Py.VInt (model_max_length self)).
Proof. rewrite call_result. unfold Py.dict_of_items. by simplify_map_eq. Qed.

Lemma call_max_length self prompt :
  result (DefaultPromptHandler_call self prompt) !! "max_length"
  = Some (Py.VInt (max_length self)).
Proof. rewrite call_result. unfold Py.dict_of_items. by simplify_map_eq. Qed.

Lemma call_dom self prompt :
  dom (result (DefaultPromptHandler_call self prompt)) = prompt_handler_keys.
Proof.
  rewrite call_result. unfold Py.dict_of_items, prompt_handler_keys. simpl.
  rewrite !dom_insert_L, dom_empty_L. set_solver.
Qed.

End prompt_handler.

Section prompt_handler_claims.
Implicit Types (self : DefaultPromptHandler) (prompt : string).

(** C7: for every prompt the dictionary returned has the five keys
    [resized_prompt], [prompt_length], [new_prompt_length],
    [model_max_length] and [max_length] and no other.
    [resized_prompt] holds the resized text: the prompt itself when it is
    empty or fits, and otherwise the tokens kept, turned back into a string.
    [prompt_length] holds the token count of the prompt (0 for the empty
    prompt, which is not tokenized).  [new_prompt_length] holds the new token
    count: that of the prompt when it fits, and otherwise the number of tokens
    kept, which is the bound [model_max_length - max_length], or, when the
    bound is negative, what is left of the token count without that many
    tokens.  [model_max_length] and [max_length] hold the two lengths the
    handler was constructed with. *)
Theorem call_returns_five_keys self prompt :
  dom (result (DefaultPromptHandler_call self prompt)) = prompt_handler_keys
  ∧ size (result (DefaultPromptHandler_call self prompt)) = 5%nat
  ∧ result (DefaultPromptHandler_call self prompt) !! "resized_prompt"
    = Some (Py.VStr
        (if bool_decide (prompt = "") then prompt
         else if bool_decide (Py.len (tokenize (tokenizer self) prompt)
                              + max_length self ≤ model_max_length self)
         then prompt
         else convert_tokens_to_string (tokenizer self)
                (take (Z.to_nat
                         (if bool_decide
                               (0 ≤ model_max_length self - max_length self)
                          then model_max_length self - max_length self
                          else Z.max 0
                                 (Py.len (tokenize (tokenizer self) prompt)
                                  + (model_max_length self - max_length self))))
                      (tokenize (tokenizer self) prompt))))
  ∧ result (DefaultPromptHandler_call self prompt) !! "prompt_length"
    = Some (Py.VInt
        (if bool_decide (prompt = "") then 0
         else Py.len (tokenize (tokenizer self) prompt)))
  ∧ result (DefaultPromptHandler_call self prompt) !! "new_prompt_length"
    = Some (Py.VInt
        (if bool_decide (prompt = "") then 0
         else if bool_decide (Py.len (tokenize (tokenizer self) prompt)
                              + max_length self ≤ model_max_length self)
         then Py.len (tokenize (tokenizer self) prompt)
         else if bool_decide (0 ≤ model_max_length self - max_length self)
         then model_max_length self - max_length self
         else Z.max 0 (Py.len (tokenize (tokenizer self) prompt)
                       + (model_max_length self - max_length self))))
  ∧ result (DefaultPromptHandler_call self prompt) !! "model_max_length"
    = Some (Py.VInt (model_max_length self))
  ∧ result (DefaultPromptHandler_call self prompt) !! "max_length"
    = Some (Py.VInt (max_length self)).
Proof.
  split; [apply call_dom|]. split.
  { rewrite <-size_dom, call_dom. reflexivity. }
  rewrite call_resized_prompt, call_prompt_length, call_new_prompt_length,
    call_model_max_length, call_max_length.
  assert (0 ≤ Py.len (tokenize (tokenizer self) prompt)) as Hlen
    by (unfold Py.len; lia).
  case_bool_decide as Hempty.
  { rewrite resize_empty by (by subst prompt). done. }
  apply truthy_spec in Hempty.
  case_bool_decide as Hfit.
  { rewrite resize_fits by done. done. }
  rewrite resize_over by done. simpl. rewrite len_slice_to.
  case_bool_decide as Hbound.
  - rewrite slice_to_in_range, adjust_index_in_range by lia. done.
  - rewrite slice_to_negative by lia. unfold Py.adjust_index.
    replace (model_max_length self - max_length self <? 0) with true by lia.
    unfold Py.len in *.
    split; [do 4 f_equal; lia|]. split; [done|].
    split; [do 2 f_equal; lia|done].
Qed.

(** C9: for the empty prompt the handler makes no call on the tokenizer and
    returns the prompt as it is, with 0 for both token counts. *)
Theorem call_empty_prompt self prompt :
  Py.truthy prompt = false →
  calls (DefaultPromptHandler_call self prompt) = []
  ∧ result (DefaultPromptHandler_call self prompt) !! "resized_prompt"
    = Some (Py.VStr prompt)
  ∧ result (DefaultPromptHandler_call self prompt) !! "prompt_length"
    = Some (Py.VInt 0)
  ∧ result (DefaultPromptHandler_call self prompt) !! "new_prompt_length"
    = Some (Py.VInt 0).
Proof.
  intros Ht.
  rewrite call_calls, call_resized_prompt, call_prompt_length,
    call_new_prompt_length, resize_empty by done.
  done.
Qed.

(** C1, amended: for every prompt that is not empty, when [max_length] is at
    most [model_max_length], the handler returns the prompt itself if its
    token count plus [max_length] is at most [model_max_length], and
    otherwise the first [model_max_length - max_length] tokens of the prompt
    turned back into a string, with [model_max_length - max_length] as the
    new prompt length. *)
Theorem call_resizes_as_described self prompt :
  prompt ≠ "" →
  max_length self ≤ model_max_length self →
  resized_as_described self prompt
    (result (DefaultPromptHandler_call self prompt)).
Proof.
  intros Ht%truthy_spec Hcfg. unfold resized_as_described.
  rewrite call_resized_prompt, call_new_prompt_length.
  case_bool_decide as Hfit.
  - by rewrite resize_fits.
  - rewrite resize_over by done. simpl.
    assert (0 ≤ model_max_length self - max_length self
            ≤ Py.len (tokenize (tokenizer self) prompt)) as Hk by lia.
    rewrite len_slice_to, adjust_index_in_range, slice_to_in_range by done.
    done.
Qed.

(** C2, amended: for every prompt that is not empty, when [max_length] is at
    most [model_max_length], the new prompt length the handler reports plus
    [max_length] is at most [model_max_length]. *)
Theorem call_fits_budget self prompt :
  prompt ≠ "" →
  max_length self ≤ model_max_length self →
  fits_budget self (result (DefaultPromptHandler_call self prompt)).
Proof.
  intros Ht%truthy_spec Hcfg. unfold fits_budget.
  rewrite call_new_prompt_length. eexists. split; [done|].
  destruct (decide (Py.len (tokenize (tokenizer self) prompt)
                    + max_length self ≤ model_max_length self)) as [Hfit|Hover].
  - by rewrite resize_fits.
  - rewrite resize_over by done. simpl.
    rewrite len_slice_to, adjust_index_in_range; lia.
Qed.

End prompt_handler_claims.

(** ** The handlers on concrete inputs *)

(** After [Hello], the text [Hello world] extends the previous text. *)
Lemma call_extending_returns_suffix_witness :
  (AnthropicTokenStreamingHandler_call
     (anthropic_after ["Hello"]) "Hello world").1
  = Py.str_slice_from "Hello world" 5
  ∧ "Hello world"
    = "Hello" +:+ (AnthropicTokenStreamingHandler_call
                     (anthropic_after ["Hello"]) "Hello world").1.
Proof.
  apply (call_extending_returns_suffix (anthropic_after ["Hello"])
           "Hello world").
  exists " world". reflexivity.
Defined.

(** After [Hello], the text [Bye] does not contain the previous text. *)
Lemma call_unrelated_resets_witness :
  Anthropic_resets (anthropic_after ["Hello"]) "Bye" = true
  ∧ previous_text (Anthropic_after_check (anthropic_after ["Hello"]) "Bye")
    = ""
  ∧ (AnthropicTokenStreamingHandler_call (anthropic_after ["Hello"]) "Bye").1
    = "Bye"
  ∧ previous_text
      (AnthropicTokenStreamingHandler_call (anthropic_after ["Hello"]) "Bye").2
    = "Bye".
Proof.
  apply (call_unrelated_resets (anthropic_after ["Hello"]) "Bye").
  intros Hsub. apply contains_spec in Hsub. vm_compute in Hsub. discriminate.
Defined.

(** C4: the handler does not clear the previous text whenever it is not a
    prefix of the text received.  After the text [b], the text [ab] has [b]
    inside but not at its head: the handler keeps [b] as the previous text
    and returns [ab] from position 1 on, which is the text it had before and
    not the new part. *)
Theorem call_keeps_inner_occurrence :
  previous_text (anthropic_after ["b"]) = "b"
  ∧ ¬ is_prefix "b" "ab"
  ∧ is_substring "b" "ab"
  ∧ Anthropic_resets (anthropic_after ["b"]) "ab" = false
  ∧ previous_text (Anthropic_after_check (anthropic_after ["b"]) "ab") = "b"
  ∧ (AnthropicTokenStreamingHandler_call (anthropic_after ["b"]) "ab").1 = "b".
Proof.
  split; [reflexivity|]. split.
  { intros Hpre. apply prefix_spec in Hpre. vm_compute in Hpre. discriminate. }
  split; [by exists "a", ""|].
  repeat split.
Qed.

(** The empty prompt with a model of 8 tokens and 3 kept for the answer. *)
Lemma call_empty_prompt_witness :
  calls (DefaultPromptHandler_call (char_prompt_handler 8 3) "") = []
  ∧ result (DefaultPromptHandler_call (char_prompt_handler 8 3) "")
      !! "resized_prompt" = Some (Py.VStr "")
  ∧ result (DefaultPromptHandler_call (char_prompt_handler 8 3) "")
      !! "prompt_length" = Some (Py.VInt 0)
  ∧ result (DefaultPromptHandler_call (char_prompt_handler 8 3) "")
      !! "new_prompt_length" = Some (Py.VInt 0).
Proof.
  apply (call_empty_prompt (char_prompt_handler 8 3) ""). reflexivity.
Defined.

(** A prompt of 8 tokens with a model of 8 tokens and 3 kept for the answer
    is cut to its first 5 tokens. *)
Lemma call_resizes_as_described_witness :
  result (DefaultPromptHandler_call (char_prompt_handler 8 3) "abcdefgh")
    !! "resized_prompt" = Some (Py.VStr "abcde")
  ∧ result (DefaultPromptHandler_call (char_prompt_handler 8 3) "abcdefgh")
      !! "new_prompt_length" = Some (Py.VInt 5).
Proof.
  apply (call_resizes_as_described (char_prompt_handler 8 3) "abcdefgh").
  - discriminate.
  - simpl. lia.
Defined.

(** The same prompt and handler: 5 + 3 is within 8. *)
Lemma call_fits_budget_witness :
  fits_budget (char_prompt_handler 8 3)
    (result (DefaultPromptHandler_call (char_prompt_handler 8 3) "abcdefgh")).
Proof.
  apply (call_fits_budget (char_prompt_handler 8 3) "abcdefgh").
  - discriminate.
  - simpl. lia.
Defined.

(** C1 as it is stated fails when [max_length] is above [model_max_length]:
    with a model of 0 tokens, 1 token kept for the answer and the prompt
    [ab] of 2 tokens, the slice [tokens[:-1]] keeps the token [a], the new
    prompt length is 1 and not [0 - 1]. *)
Lemma call_resizes_as_described_counterexample :
  "ab" ≠ ""
  ∧ result (DefaultPromptHandler_call (char_prompt_handler 0 1) "ab")
      !! "resized_prompt" = Some (Py.VStr "a")
  ∧ result (DefaultPromptHandler_call (char_prompt_handler 0 1) "ab")
      !! "new_prompt_length" = Some (Py.VInt 1)
  ∧ ¬ resized_as_described (char_prompt_handler 0 1) "ab"
        (result (DefaultPromptHandler_call (char_prompt_handler 0 1) "ab")).
Proof.
  split; [discriminate|]. split; [reflexivity|]. split; [reflexivity|].
  unfold resized_as_described. rewrite call_new_prompt_length.
  vm_compute. intros [_ Hlen]. discriminate.
Qed.

(** C2 as it is stated fails when [max_length] is above [model_max_length]:
    with a model of 5 tokens, 10 tokens kept for the answer and a prompt of 8
    tokens, the slice [tokens[:-5]] keeps 3 tokens, and 3 + 10 is above 5. *)
Lemma call_fits_budget_counterexample :
  "abcdefgh" ≠ ""
  ∧ result (DefaultPromptHandler_call (char_prompt_handler 5 10) "abcdefgh")
      !! "new_prompt_length" = Some (Py.VInt 3)
  ∧ ¬ fits_budget (char_prompt_handler 5 10)
        (result (DefaultPromptHandler_call (char_prompt_handler 5 10)
                   "abcdefgh")).
Proof.
  split; [discriminate|]. split; [reflexivity|].
  intros (n & Hn & Hle). rewrite call_new_prompt_length in Hn.
  vm_compute in Hn. injection Hn as <-. simpl in Hle. lia.
Qed.

(** ** Streams through the Anthropic handler *)

Lemma handler_calls_cons {H : Type} `{!TokenStreamingHandler H}
    (h : H) (t : string) (ts : list string) :
  handler_calls h (t :: ts)
  = ((handler_call h t).1 :: (handler_calls (handler_call h t).2 ts).1,
     (handler_calls (handler_call h t).2 ts).2).
Proof.
  simpl. destruct (handler_call h t) as [r h']. simpl.
  by destruct (handler_calls h' ts).
Qed.

Lemma last_text_cons (prev t : string) (ts : list string) :
  last_text prev (t :: ts) = last_text t ts.
Proof.
  unfold last_text. destruct ts as [|t' ts]; [done|].
  rewrite last_cons_cons.
  destruct (last_is_Some (t' :: ts)) as [_ [x ->]]; done.
Qed.

Lemma substring_length (sub t : string) :
  is_substring sub t → (String.length sub ≤ String.length t)%nat.
Proof. intros (a & b & ->). rewrite !length_app_str. lia. Qed.

(** [drop_str n s] is [s] without a head of [n] characters, or of all its
    characters if it has fewer. *)
Lemma drop_str_tail (n : nat) (s : string) :
  ∃ head, s = head +:+ Py.drop_str n s
          ∧ String.length head = (n `min` String.length s)%nat.
Proof.
  revert s. induction n as [|n IH]; intros s.
  - exists "". by rewrite drop_str_0.
  - destruct s as [|c s]; [by exists ""|].
    destruct (IH s) as (head & Hs & Hlen).
    exists (String c head). simpl. rewrite app_String, <-Hs, Hlen. done.
Qed.

Section anthropic_streams.
Context {H : Type} `{!TokenStreamingHandler H}.
Implicit Types (self : AnthropicTokenStreamingHandler H).
Implicit Types (t : string) (texts ts : list string).

Lemma call_returns_rest self t :
  is_prefix (previous_text self) t →
  previous_text self +:+ (AnthropicTokenStreamingHandler_call self t).1 = t.
Proof.
  intros Hpre. rewrite call_returns, after_check_keep.
  - destruct Hpre as [s ->]. by rewrite str_slice_from_app.
  - by apply no_reset_spec, prefix_substring.
Qed.

Lemma call_returns_all_on_reset self t :
  ¬ is_substring (previous_text self) t →
  (AnthropicTokenStreamingHandler_call self t).1 = t.
Proof.
  intros Hsub%resets_spec.
  rewrite call_returns, after_check_reset by done. apply str_slice_from_0.
Qed.

Lemma growing_stream self texts :
  growing (previous_text self) texts →
  previous_text self +:+ str_join (handler_calls self texts).1
  = last_text (previous_text self) texts
  ∧ previous_text (handler_calls self texts).2
    = last_text (previous_text self) texts.
Proof.
  revert self. induction texts as [|t ts IH]; intros self Hgrow.
  - split; [apply app_empty_r|done].
  - destruct Hgrow as [Hpre Hgrow].
    rewrite handler_calls_cons, last_text_cons. simpl.
    change (handler_call self t)
      with (AnthropicTokenStreamingHandler_call self t).
    destruct (IH (AnthropicTokenStreamingHandler_call self t).2)
      as [IHjoin IHprev].
    { by rewrite call_previous_text. }
    rewrite call_previous_text in IHjoin, IHprev. split; [|done].
    rewrite <-IHjoin. unfold str_join at 1. simpl.
    rewrite <-app_assoc_str. by rewrite call_returns_rest.
Qed.

(** X1: over a stream of texts in which every text extends the one before
    it, the parts the handler returns, one after the other, are what the last
    text adds to the text the handler started from; and the handler ends with
    the last text as its previous text. *)
Theorem stream_growing_returns_rest self texts :
  growing (previous_text self) texts →
  previous_text self +:+ str_join (handler_calls self texts).1
  = last_text (previous_text self) texts
  ∧ previous_text (handler_calls self texts).2
    = last_text (previous_text self) texts.
Proof. apply growing_stream. Qed.

(** X3: when the handler is used again for a new stream whose first text does
    not contain the text the handler was left with, the parts it returns over
    the new stream make up the last text of the new stream in full. *)
Theorem stream_after_reuse self t ts :
  ¬ is_substring (previous_text self) t →
  growing t ts →
  str_join (handler_calls self (t :: ts)).1 = last_text t ts.
Proof.
  intros Hsub Hgrow. rewrite handler_calls_cons. simpl.
  change (handler_call self t)
    with (AnthropicTokenStreamingHandler_call self t).
  destruct (growing_stream
              (AnthropicTokenStreamingHandler_call self t).2 ts) as [Hjoin _].
  { by rewrite call_previous_text. }
  rewrite call_previous_text in Hjoin. rewrite <-Hjoin.
  unfold str_join at 1. simpl. by rewrite call_returns_all_on_reset.
Qed.

End anthropic_streams.

(** What the printing handler has printed after a stream through the
    Anthropic handler: the parts returned, after what was printed before. *)
Lemma stream_printed
    (self : AnthropicTokenStreamingHandler DefaultTokenStreamingHandler)
    (texts : list string) :
  printed (token_handler (handler_calls self texts).2)
  = printed (token_handler self) +:+ str_join (handler_calls self texts).1.
Proof.
  revert self. induction texts as [|t ts IH]; intros self.
  - simpl. by rewrite app_empty_r.
  - rewrite handler_calls_cons. cbn [fst snd].
    change (handler_call self t)
      with (AnthropicTokenStreamingHandler_call self t).
    rewrite IH, call_token_handler.
    change (str_join (?r :: ?rs)) with (r +:+ str_join rs).
    by rewrite <-app_assoc_str.
Qed.

(** X2: a new Anthropic handler around the printing handler, fed a stream in
    which every text extends the one before it, prints the last text once:
    after the stream the output is what was printed before, followed by the
    last text. *)
Theorem stream_prints_text_once (before : string) (texts : list string) :
  growing "" texts →
  printed
    (token_handler
       (handler_calls
          (AnthropicTokenStreamingHandler_init {| printed := before |})
          texts).2)
  = before +:+ last_text "" texts.
Proof.
  intros Hgrow. rewrite stream_printed. simpl. f_equal.
  by destruct (growing_stream
                 (AnthropicTokenStreamingHandler_init {| printed := before |})
                 texts Hgrow) as [Hjoin _].
Qed.

Section anthropic_calls.
Context {H : Type} `{!TokenStreamingHandler H}.
Implicit Types (self : AnthropicTokenStreamingHandler H) (t : string).

(** X4: whatever text the handler was left with, a call returns a tail of
    the text received: the text received without its first characters, as
    many as the previous text has, or without none when the previous text
    does not occur in it. *)
Theorem call_returns_tail self t :
  ∃ head,
    t = head +:+ (AnthropicTokenStreamingHandler_call self t).1
    ∧ String.length head
      = if Anthropic_resets self t then 0%nat
        else String.length (previous_text self).
Proof.
  rewrite call_returns. unfold Py.str_slice_from, Py.len_str.
  destruct (Anthropic_resets self t) eqn:Hreset.
  - rewrite after_check_reset by done. exists "". simpl.
    rewrite adjust_index_in_range by lia. by rewrite drop_str_0.
  - rewrite after_check_keep by done.
    pose proof (substring_length _ _ (proj1 (no_reset_spec self t) Hreset))
      as Hlen.
    rewrite adjust_index_in_range, Nat2Z.id by lia.
    destruct (drop_str_tail (String.length (previous_text self)) t)
      as (head & Ht & Hhead).
    exists head. split; [done|]. lia.
Qed.

End anthropic_calls.

(** X5: a call with the very text of the previous call returns the empty
    string, and the wrapped handler is still called, with the empty string. *)
Theorem call_same_text_forwards_empty
    {H : Type} `{!TokenStreamingHandler H}
    (handler : RecordingHandler H) (t : string) :
  (AnthropicTokenStreamingHandler_call
     {| token_handler := handler; previous_text := t |} t).1 = ""
  ∧ received
      (token_handler
         (AnthropicTokenStreamingHandler_call
            {| token_handler := handler; previous_text := t |} t).2)
    = received handler ++ [""].
Proof.
  assert ((AnthropicTokenStreamingHandler_call
             {| token_handler := handler; previous_text := t |} t).1 = "")
    as Hret.
  { apply (inj (String.app t)). rewrite app_empty_r.
    apply (call_returns_rest {| token_handler := handler; previous_text := t |}).
    exists "". by rewrite app_empty_r. }
  split; [done|]. rewrite call_token_handler, Hret. simpl.
  unfold handler_call at 1, RecordingHandler_handler, RecordingHandler_call.
  by destruct (handler_call _ _).
Qed.

(** ** Streams through the Hugging Face handler *)

Lemma on_finalized_text_printed
    (self : HFTokenStreamingHandler DefaultTokenStreamingHandler)
    (token : string) (stream_end : bool) :
  on_finalized_text self token stream_end
  = {| hf_tokenizer := hf_tokenizer self;
       hf_token_handler :=
         {| printed := printed (hf_token_handler self)
                       +:+ token_to_send (token, stream_end) |} |}.
Proof. reflexivity. Qed.

(** X6: the Hugging Face handler around the printing handler prints the
    chunks it is given in their order, each as it is, except that a chunk
    given with [stream_end] is followed by a line end; its tokenizer stays
    the same. *)
Theorem on_finalized_texts_prints_chunks
    (self : HFTokenStreamingHandler DefaultTokenStreamingHandler)
    (chunks : list (string * bool)) :
  printed (hf_token_handler (on_finalized_texts self chunks))
  = printed (hf_token_handler self) +:+ str_join (token_to_send <$> chunks)
  ∧ hf_tokenizer (on_finalized_texts self chunks) = hf_tokenizer self.
Proof.
  revert self. induction chunks as [|[token stream_end] chunks IH]; intros self.
  - simpl. by rewrite app_empty_r.
  - unfold on_finalized_texts in *. simpl.
    destruct (IH (on_finalized_text self token stream_end)) as [-> ->].
    rewrite on_finalized_text_printed. simpl. split; [|done].
    unfold str_join at 2. simpl. by rewrite app_assoc_str.
Qed.

(** ** More on the prompt handler *)

Section prompt_handler_more.
Implicit Types (self : DefaultPromptHandler) (prompt : string).

Lemma adjust_index_bounds (i n : Z) : 0 ≤ n → 0 ≤ Py.adjust_index i n ≤ n.
Proof. intros ?. unfold Py.adjust_index. case_eq (i <? 0); lia. Qed.

Lemma adjust_index_below (i n : Z) : 0 < n → i < n → Py.adjust_index i n < n.
Proof. intros ??. unfold Py.adjust_index. case_eq (i <? 0); lia. Qed.

Lemma len_nonneg {A} (l : list A) : 0 ≤ Py.len l.
Proof. unfold Py.len. lia. Qed.

(** The two lengths at the [return], for every prompt. *)
Lemma resize_lengths self prompt :
  (result (resize self prompt)).1.2
  = (if Py.truthy prompt
     then Py.len (tokenize (tokenizer self) prompt) else 0)
  ∧ (result (resize self prompt)).2
    = (if Py.truthy prompt
       then if bool_decide (Py.len (tokenize (tokenizer self) prompt)
                            + max_length self ≤ model_max_length self)
            then Py.len (tokenize (tokenizer self) prompt)
            else Py.adjust_index (model_max_length self - max_length self)
                   (Py.len (tokenize (tokenizer self) prompt))
       else 0).
Proof.
  destruct (Py.truthy prompt) eqn:Ht.
  - case_bool_decide as Hfit.
    + by rewrite resize_fits.
    + rewrite resize_over by done. simpl. by rewrite len_slice_to.
  - by rewrite resize_empty.
Qed.

(** X7: for every prompt and every two lengths, the new prompt length the
    handler reports is at least 0 and at most the prompt length it reports:
    the handler never makes a prompt longer. *)
Theorem call_never_lengthens self prompt :
  ∃ prompt_length new_prompt_length,
    result (DefaultPromptHandler_call self prompt) !! "prompt_length"
    = Some (Py.VInt prompt_length)
    ∧ result (DefaultPromptHandler_call self prompt) !! "new_prompt_length"
      = Some (Py.VInt new_prompt_length)
    ∧ 0 ≤ new_prompt_length ≤ prompt_length.
Proof.
  rewrite call_prompt_length, call_new_prompt_length.
  eexists _, _. split; [done|]. split; [done|].
  destruct (resize_lengths self prompt) as [-> ->].
  pose proof (len_nonneg (tokenize (tokenizer self) prompt)) as Hlen.
  pose proof (adjust_index_bounds (model_max_length self - max_length self)
                _ Hlen) as Hadj.
  destruct (Py.truthy prompt); [case_bool_decide|]; lia.
Qed.

(** X8: for a prompt that is not empty the handler calls the tokenizer once,
    to tokenize the prompt, when the prompt fits; when it does not fit the
    handler tokenizes the prompt a second time and then turns the tokens it
    keeps back into a string. *)
Theorem call_tokenizer_calls self prompt :
  prompt ≠ "" →
  calls (DefaultPromptHandler_call self prompt)
  = if bool_decide (Py.len (tokenize (tokenizer self) prompt)
                    + max_length self ≤ model_max_length self)
    then [CallTokenize prompt]
    else [CallTokenize prompt; CallTokenize prompt;
          CallConvertTokensToString
            (Py.slice_to (tokenize (tokenizer self) prompt)
               (model_max_length self - max_length self))].
Proof.
  intros Ht%truthy_spec. rewrite call_calls. case_bool_decide as Hfit.
  - by rewrite resize_fits.
  - by rewrite resize_over.
Qed.

(** X9: when [max_length] is above [model_max_length] the handler cuts
    every prompt that is not empty, and what it keeps are the tokens of the
    prompt without the last [max_length - model_max_length] of them (none if
    the prompt has no more tokens than that). *)
Theorem call_over_configured self prompt :
  prompt ≠ "" →
  model_max_length self < max_length self →
  result (DefaultPromptHandler_call self prompt) !! "resized_prompt"
  = Some (Py.VStr
            (convert_tokens_to_string (tokenizer self)
               (take (length (tokenize (tokenizer self) prompt)
                      - Z.to_nat (max_length self - model_max_length self))
                     (tokenize (tokenizer self) prompt))))
  ∧ result (DefaultPromptHandler_call self prompt) !! "new_prompt_length"
    = Some (Py.VInt
              (Z.max 0 (Py.len (tokenize (tokenizer self) prompt)
                        - (max_length self - model_max_length self)))).
Proof.
  intros Ht%truthy_spec Hcfg.
  pose proof (len_nonneg (tokenize (tokenizer self) prompt)) as Hlen.
  rewrite call_resized_prompt, call_new_prompt_length.
  rewrite resize_over by (done || lia). simpl.
  rewrite len_slice_to, slice_to_negative by lia. split.
  - do 4 f_equal. lia.
  - do 2 f_equal. unfold Py.adjust_index.
    replace (model_max_length self - max_length self <? 0) with true by lia.
    lia.
Qed.

Lemma resize_new_length_fits self prompt :
  max_length self ≤ model_max_length self →
  (result (resize self prompt)).2 + max_length self ≤ model_max_length self.
Proof.
  intros Hcfg. destruct (resize_lengths self prompt) as [_ ->].
  pose proof (len_nonneg (tokenize (tokenizer self) prompt)) as Hlen.
  destruct (Py.truthy prompt); [case_bool_decide as Hfit|]; [lia| |lia].
  rewrite adjust_index_in_range; lia.
Qed.

(** X10: for every prompt, the new prompt length the handler reports leaves
    room for [max_length] within [model_max_length] exactly when [max_length]
    itself is at most [model_max_length]. *)
Theorem call_fits_budget_iff self prompt :
  fits_budget self (result (DefaultPromptHandler_call self prompt))
  ↔ max_length self ≤ model_max_length self.
Proof.
  unfold fits_budget. rewrite call_new_prompt_length.
  destruct (resize_lengths self prompt) as [_ Hnew].
  pose proof (len_nonneg (tokenize (tokenizer self) prompt)) as Hlen.
  pose proof (adjust_index_bounds (model_max_length self - max_length self)
                _ Hlen) as Hadj.
  split.
  - intros (n & [= <-] & Hle). rewrite Hnew in Hle.
    destruct (Py.truthy prompt); [case_bool_decide|]; lia.
  - intros Hcfg. eexists. split; [done|].
    by apply resize_new_length_fits.
Qed.

(** X11: when [max_length] is at most [model_max_length] and the tokenizer
    finds no more tokens in a resized prompt than the new prompt length
    reported for it, resizing the resized prompt again gives it back
    unchanged. *)
Theorem call_resized_is_stable self prompt :
  max_length self ≤ model_max_length self →
  Py.len (tokenize (tokenizer self) (result (resize self prompt)).1.1)
    ≤ (result (resize self prompt)).2 →
  result (DefaultPromptHandler_call self (result (resize self prompt)).1.1)
    !! "resized_prompt"
  = Some (Py.VStr (result (resize self prompt)).1.1).
Proof.
  intros Hcfg Hlen. rewrite call_resized_prompt.
  set (resized := (result (resize self prompt)).1.1) in *.
  destruct (Py.truthy resized) eqn:Ht; [|by rewrite resize_empty].
  rewrite resize_fits; [done..|].
  pose proof (resize_new_length_fits self prompt Hcfg). lia.
Qed.

End prompt_handler_more.

(** X12: when a prompt that is not empty does not fit, the handler keeps a
    number of tokens from the head of the prompt, turns them back into a
    string and reports their number; if the prompt has tokens at all, it
    keeps fewer than the prompt has. *)
Theorem call_over_budget_keeps_leading_tokens
    (self : DefaultPromptHandler) (prompt : string) :
  prompt ≠ "" →
  ¬ (Py.len (tokenize (tokenizer self) prompt) + max_length self
     ≤ model_max_length self) →
  ∃ n : nat,
    (n ≤ length (tokenize (tokenizer self) prompt))%nat
    ∧ (tokenize (tokenizer self) prompt ≠ []
       → (n < length (tokenize (tokenizer self) prompt))%nat)
    ∧ result (DefaultPromptHandler_call self prompt) !! "resized_prompt"
      = Some (Py.VStr (convert_tokens_to_string (tokenizer self)
                         (take n (tokenize (tokenizer self) prompt))))
    ∧ result (DefaultPromptHandler_call self prompt) !! "new_prompt_length"
      = Some (Py.VInt (Z.of_nat n)).
Proof.
  intros Ht%truthy_spec Hover.
  pose proof (len_nonneg (tokenize (tokenizer self) prompt)) as Hlen.
  pose proof (adjust_index_bounds (model_max_length self - max_length self)
                _ Hlen) as Hadj.
  rewrite call_resized_prompt, call_new_prompt_length.
  rewrite resize_over by done. simpl. rewrite len_slice_to.
  exists (Z.to_nat (Py.adjust_index (model_max_length self - max_length self)
                      (Py.len (tokenize (tokenizer self) prompt)))).
  unfold Py.len in *. split; [lia|]. split.
  - intros Hne. destruct (tokenize (tokenizer self) prompt) as [|tok toks] eqn:Htoks;
      [done|].
    pose proof (adjust_index_below
                  (model_max_length self - max_length self)
                  (Z.of_nat (length (tok :: toks)))) as Hbelow.
    simpl length in *. lia.
  - split; [done|]. do 2 f_equal. lia.
Qed.

(** ** The further statements on concrete inputs *)

(** Three texts of a stream, each extending the one before. *)
Lemma stream_growing_returns_rest_witness :
  "" +:+ str_join
           (handler_calls (anthropic_after []) ["He"; "Hello"; "Hello w"]).1
  = "Hello w"
  ∧ previous_text
      (handler_calls (anthropic_after []) ["He"; "Hello"; "Hello w"]).2
    = "Hello w".
Proof.
  apply (stream_growing_returns_rest (anthropic_after [])
           ["He"; "Hello"; "Hello w"]).
  simpl. split; [by exists "He"|]. split; [by exists "llo"|].
  split; [by exists " w"|done].
Defined.

Lemma stream_prints_text_once_witness :
  printed
    (token_handler
       (handler_calls
          (AnthropicTokenStreamingHandler_init {| printed := "> " |})
          ["He"; "Hello"; "Hello w"]).2)
  = "> Hello w".
Proof.
  apply (stream_prints_text_once "> " ["He"; "Hello"; "Hello w"]).
  simpl. split; [by exists "He"|]. split; [by exists "llo"|].
  split; [by exists " w"|done].
Defined.

(** A handler left with [Hello w] starts the stream [By], [Bye]. *)
Lemma stream_after_reuse_witness :
  str_join (handler_calls (anthropic_after ["Hello w"]) ["By"; "Bye"]).1
  = "Bye".
Proof.
  apply (stream_after_reuse (anthropic_after ["Hello w"]) "By" ["Bye"]).
  - intros Hsub. apply contains_spec in Hsub. vm_compute in Hsub.
    discriminate.
  - simpl. split; [by exists "e"|done].
Defined.

Lemma call_tokenizer_calls_witness :
  calls (DefaultPromptHandler_call (char_prompt_handler 8 3) "abcdefgh")
  = [CallTokenize "abcdefgh"; CallTokenize "abcdefgh";
     CallConvertTokensToString ["a"; "b"; "c"; "d"; "e"]].
Proof.
  apply (call_tokenizer_calls (char_prompt_handler 8 3) "abcdefgh").
  discriminate.
Defined.

(** A model of 5 tokens with 10 kept for the answer: of the 8 tokens of the
    prompt the last 5 are dropped. *)
Lemma call_over_configured_witness :
  result (DefaultPromptHandler_call (char_prompt_handler 5 10) "abcdefgh")
    !! "resized_prompt" = Some (Py.VStr "abc")
  ∧ result (DefaultPromptHandler_call (char_prompt_handler 5 10) "abcdefgh")
      !! "new_prompt_length" = Some (Py.VInt 3).
Proof.
  apply (call_over_configured (char_prompt_handler 5 10) "abcdefgh").
  - discriminate.
  - simpl. lia.
Defined.

Lemma call_resized_is_stable_witness :
  result (DefaultPromptHandler_call (char_prompt_handler 8 3) "abcde")
    !! "resized_prompt" = Some (Py.VStr "abcde").
Proof.
  apply (call_resized_is_stable (char_prompt_handler 8 3) "abcdefgh").
  - simpl. lia.
  - vm_compute. discriminate.
Defined.

Lemma call_over_budget_keeps_leading_tokens_witness :
  ∃ n : nat,
    (n ≤ 8)%nat
    ∧ (chars "abcdefgh" ≠ [] → (n < 8)%nat)
    ∧ result (DefaultPromptHandler_call (char_prompt_handler 8 3) "abcdefgh")
        !! "resized_prompt"
      = Some (Py.VStr (str_join (take n (chars "abcdefgh"))))
    ∧ result (DefaultPromptHandler_call (char_prompt_handler 8 3) "abcdefgh")
        !! "new_prompt_length" = Some (Py.VInt (Z.of_nat n)).
Proof.
  apply (call_over_budget_keeps_leading_tokens
           (char_prompt_handler 8 3) "abcdefgh").
  - discriminate.
  - simpl. unfold Py.len. simpl. lia.
Defined.
